(** * wxPropertyGrid editors: the editor base class and wxPGMultiButton

    A shallow embedding of [interface/wx/propgrid/editors.h].  The header
    gives the inline bodies of the [wxPGEditor] constructor and of the
    [wxPGMultiButton] accessors and layout functions; these are embedded
    as they are written, and so are the two functions of the editor the
    header gives as usage example.  Of what the header only declares, the
    [wxPGMultiButton] constructor, [Add] and the default list hooks of the
    editor are modelled from the specification and marked so. *)

From Stdlib Require Import ZArith Lia.
From stdpp Require Import base decidable option list strings.

Local Open Scope Z_scope.

(** ** The C++ [int]: 32 bits, two's complement *)

Module CInt.

Definition INT_MIN : Z := - 2 ^ 31.
Definition INT_MAX : Z := 2 ^ 31 - 1.

(** The value an [int] holds after a result [z] is stored in it. *)
Definition wrap (z : Z) : Z := (z + 2 ^ 31) mod 2 ^ 32 - 2 ^ 31.

Definition in_range (z : Z) : Prop := INT_MIN <= z <= INT_MAX.

Definition add (a b : Z) : Z := wrap (a + b).
Definition sub (a b : Z) : Z := wrap (a - b).

End CInt.

(** ** Geometry: [wxSize] and [wxPoint] carry two [int]s each *)

Record wxSize := mk_wxSize { sz_x : Z; sz_y : Z }.
Record wxPoint := mk_wxPoint { pt_x : Z; pt_y : Z }.

(** ** Buttons of a wxPGMultiButton *)

Record wxBitmap := mk_wxBitmap { bmp_width : Z; bmp_height : Z }.

(** A button shows either a text label or a bitmap. *)
Inductive ButtonFace :=
| TextLabel (label : string)
| Image (bitmap : wxBitmap).

(** The child window behind one entry of [m_buttons]: what it shows, its
    window identifier and the width it occupies. *)
Record wxButton := mk_wxButton {
  btn_face : ButtonFace;
  btn_id : Z;
  btn_width : Z
}.

Definition GetId (b : wxButton) : Z := btn_id b.

(** What the widget toolkit decides and neither the header nor the spec
    fixes: how wide a new button is in a cell of a given size, which
    identifier a button gets when the caller supplies none (from the
    buttons already in the control), and where a window sits before it is
    moved. *)
Class Toolkit := {
  ButtonWidth : ButtonFace -> wxSize -> Z;
  GenId : list wxButton -> Z;
  DefaultPosition : wxPoint
}.

(** ** wxPGMultiButton *)

(** [m_position] is the position kept by the [wxWindow] base object. *)
Record wxPGMultiButton := mk_wxPGMultiButton {
  m_position : wxPoint;
  m_buttons : list wxButton;
  m_fullEditorSize : wxSize;
  m_buttonsWidth : Z
}.

(** Modelled from the spec: the body of the constructor
    [wxPGMultiButton(pg, sz)] is missing.  The control remembers the full
    editor cell size, has no button yet and no width consumed. *)
Definition wxPGMultiButton_ctor `{Toolkit} (sz : wxSize) : wxPGMultiButton :=
  {| m_position := DefaultPosition;
     m_buttons := [];
     m_fullEditorSize := sz;
     m_buttonsWidth := 0 |}.

(** [wxWindow* GetButton(unsigned int i) { return m_buttons[i]; }]
    Indexing past the end of the array is the failure case. *)
Definition GetButton (mb : wxPGMultiButton) (i : N) : option wxButton :=
  m_buttons mb !! N.to_nat i.

(** [int GetButtonId(unsigned int i) const { return GetButton(i)->GetId(); }] *)
Definition GetButtonId (mb : wxPGMultiButton) (i : N) : option Z :=
  GetId <$> GetButton mb i.

(** [int GetCount() const { return m_buttons.Count(); }] *)
Definition GetCount (mb : wxPGMultiButton) : Z :=
  CInt.wrap (Z.of_nat (length (m_buttons mb))).

(** The default of the [id] argument of both [Add] overloads. *)
Definition Add_default_id : Z := -2.

(** Modelled from the spec: the body shared by the two [Add] overloads is
    missing.  A button is appended; its identifier is the one supplied, or
    an auto-assigned one when the argument is the default sentinel; the
    running buttons-width total grows by the width of the new button. *)
Definition Add `{Toolkit} (mb : wxPGMultiButton) (face : ButtonFace) (id : Z)
  : wxPGMultiButton :=
  let id' := if decide (id = Add_default_id) then GenId (m_buttons mb) else id in
  let bw := ButtonWidth face (m_fullEditorSize mb) in
  {| m_position := m_position mb;
     m_buttons := m_buttons mb ++ [mk_wxButton face id' bw];
     m_fullEditorSize := m_fullEditorSize mb;
     m_buttonsWidth := CInt.add (m_buttonsWidth mb) bw |}.

(** [void Add(const wxString& label, int id = -2);] *)
Definition Add_label `{Toolkit} (mb : wxPGMultiButton) (label : string) (id : Z) :=
  Add mb (TextLabel label) id.

(** [void Add(const wxBitmap& bitmap, int id = -2);] *)
Definition Add_bitmap `{Toolkit} (mb : wxPGMultiButton) (bitmap : wxBitmap) (id : Z) :=
  Add mb (Image bitmap) id.

(** One call of [Add] as a caller writes it: the face of the button and
    the identifier, [None] when the argument is left out. *)
Record AddCall := mk_AddCall { call_face : ButtonFace; call_id : option Z }.

Definition do_Add `{Toolkit} (mb : wxPGMultiButton) (c : AddCall) : wxPGMultiButton :=
  let id := default Add_default_id (call_id c) in
  match call_face c with
  | TextLabel label => Add_label mb label id
  | Image bitmap => Add_bitmap mb bitmap id
  end.

(** A control after its construction and a sequence of [Add] calls. *)
Definition after_adds `{Toolkit} (sz : wxSize) (calls : list AddCall) : wxPGMultiButton :=
  foldl do_Add (wxPGMultiButton_ctor sz) calls.

(** The combined width of a sequence of buttons. *)
Definition total_width (bs : list wxButton) : Z :=
  foldr (fun b acc => btn_width b + acc) 0 bs.

(** [wxSize GetPrimarySize() const
      { return wxSize(m_fullEditorSize.x - m_buttonsWidth, m_fullEditorSize.y); }] *)
Definition GetPrimarySize (mb : wxPGMultiButton) : wxSize :=
  mk_wxSize (CInt.sub (sz_x (m_fullEditorSize mb)) (m_buttonsWidth mb))
            (sz_y (m_fullEditorSize mb)).

(** Modelled from the spec: [wxWindow::Move(x, y)] is missing; it puts the
    window at the given position and touches nothing else. *)
Definition Move (mb : wxPGMultiButton) (x y : Z) : wxPGMultiButton :=
  {| m_position := mk_wxPoint x y;
     m_buttons := m_buttons mb;
     m_fullEditorSize := m_fullEditorSize mb;
     m_buttonsWidth := m_buttonsWidth mb |}.

(** [void FinalizePosition(const wxPoint& pos)
      { Move(pos.x + m_fullEditorSize.x - m_buttonsWidth, pos.y); }] *)
Definition FinalizePosition (mb : wxPGMultiButton) (pos : wxPoint) : wxPGMultiButton :=
  Move mb
       (CInt.sub (CInt.add (pt_x pos) (sz_x (m_fullEditorSize mb))) (m_buttonsWidth mb))
       (pt_y pos).

(** The x-coordinate just past the last button: the cluster starts at the
    window position and its buttons lie side by side. *)
Definition ClusterRight (mb : wxPGMultiButton) : Z :=
  pt_x (m_position mb) + total_width (m_buttons mb).

(** [m_buttonsWidth] is the combined width of the buttons, as an [int]. *)
Definition width_accounted (mb : wxPGMultiButton) : Prop :=
  m_buttonsWidth mb = CInt.wrap (total_width (m_buttons mb)).

(** The identifiers of the buttons, in order. *)
Definition button_ids (mb : wxPGMultiButton) : list Z :=
  GetId <$> m_buttons mb.

(** The identifier a call of [Add] passes on. *)
Definition passed_id (c : AddCall) : Z := default Add_default_id (call_id c).

(** A toolkit to run the definitions on: text buttons are as wide as the
    cell is high, image buttons as wide as their bitmap, a button without
    identifier gets one above all those in use, and new windows sit off
    screen. *)
Definition max_id (bs : list wxButton) : Z :=
  foldr (fun b acc => Z.max (GetId b) acc) 0 bs.

Definition SampleToolkit : Toolkit :=
  {| ButtonWidth face sz :=
       match face with
       | TextLabel _ => sz_y sz
       | Image bitmap => bmp_width bitmap
       end;
     GenId bs := max_id bs + 1;
     DefaultPosition := mk_wxPoint (-100) (-100) |}.

(** The calls of the example in the header: two text buttons and a bitmap
    button, identifiers left to the default; and the same buttons with
    identifiers of the caller. *)
Definition sample_calls : list AddCall :=
  [ mk_AddCall (TextLabel "...") None;
    mk_AddCall (TextLabel "A") None;
    mk_AddCall (Image (mk_wxBitmap 16 16)) None ].

Definition sample_calls_with_ids : list AddCall :=
  [ mk_AddCall (TextLabel "...") (Some 10);
    mk_AddCall (TextLabel "A") (Some 11);
    mk_AddCall (Image (mk_wxBitmap 16 16)) (Some 7) ].

(** ** wxPGEditor *)

(** A [void*] is an address; [NULL] is address zero. *)
Definition NULL : Z := 0.

(** The only data member of the base class. *)
Record wxPGEditor := mk_wxPGEditor { m_clientData : Z }.

(** [wxPGEditor() : wxObject() { m_clientData = NULL; }]
    The argument is the object before the body runs, its member not yet
    initialised. *)
Definition wxPGEditor_ctor (raw : wxPGEditor) : wxPGEditor :=
  {| m_clientData := NULL |}.

(** ** Events and control lists *)

Record wxEvent := mk_wxEvent { GetEventType : Z; GetEventId : Z }.

(** The outcome of [CreateControls]: the primary control and, for editors
    with extra buttons, a secondary one. *)
Record wxPGWindowList (Ctrl : Type) := mk_wxPGWindowList {
  m_primary : Ctrl;
  m_secondary : option wxPGMultiButton
}.
Arguments mk_wxPGWindowList {Ctrl} _ _.
Arguments m_primary {Ctrl} _.
Arguments m_secondary {Ctrl} _.

(** ** The default list hooks of the editor *)

Section EditorOperations.

Context {Ctrl : Type}.

(** Modelled from the spec: the body of the default [InsertItem] is
    missing; it does nothing to the control and answers -1. *)
Definition InsertItem (ctrl : Ctrl) (label : string) (index : Z) : Ctrl * Z :=
  (ctrl, -1).

(** Modelled from the spec: the body of the default [DeleteItem] is
    missing; it does nothing to the control. *)
Definition DeleteItem (ctrl : Ctrl) (index : Z) : Ctrl := ctrl.

End EditorOperations.

(** ** The editor of the usage example in the header

    The documentation of [wxPGMultiButton] carries a complete editor,
    [wxMultiButtonTextCtrlEditor], as the intended use of the class.  Its
    two functions are embedded as written.  What they take from classes
    outside the header is a parameter: the event type of a button click,
    the folder bitmap of the art provider, the accessor of the grid for the
    secondary control of the row under edit, and the two operations of the
    base editor [wxPGTextCtrlEditor]. *)

Class TextCtrlBase (PropGrid Property Ctrl : Type) := {
  wxEVT_COMMAND_BUTTON_CLICKED : Z;
  wxART_FOLDER_bitmap : wxBitmap;
  GetEditorControlSecondary : PropGrid -> wxPGMultiButton;
  wxPGTextCtrlEditor_CreateControls :
    PropGrid -> Property -> wxPoint -> wxSize -> wxPGWindowList Ctrl;
  wxPGTextCtrlEditor_OnEvent : PropGrid -> Property -> Ctrl -> wxEvent -> bool
}.

(** Modelled from the spec: [wxPGWindowList::SetSecondary] is missing; it
    stores the secondary control in the list. *)
Definition SetSecondary {Ctrl} (wndList : wxPGWindowList Ctrl)
    (secondary : wxPGMultiButton) : wxPGWindowList Ctrl :=
  mk_wxPGWindowList (m_primary wndList) (Some secondary).

Section ExampleEditor.

Context {PropGrid Property Ctrl : Type}.
Context `{Toolkit} `{TextCtrlBase PropGrid Property Ctrl}.

(** [wxMultiButtonTextCtrlEditor::CreateControls]:
    [buttons = new wxPGMultiButton(propGrid, sz);]
    [buttons->Add("..."); buttons->Add("A");]
    [buttons->Add(wxArtProvider::GetBitmap(wxART_FOLDER));]
    [wndList = wxPGTextCtrlEditor::CreateControls(propGrid, property, pos,
                                                  buttons->GetPrimarySize());]
    [buttons->FinalizePosition(pos); wndList.SetSecondary(buttons);]
    [return wndList;] *)
Definition wxMultiButtonTextCtrlEditor_CreateControls (propGrid : PropGrid)
    (property : Property) (pos : wxPoint) (sz : wxSize) : wxPGWindowList Ctrl :=
  let buttons := wxPGMultiButton_ctor sz in
  let buttons := Add_label buttons "..." Add_default_id in
  let buttons := Add_label buttons "A" Add_default_id in
  let buttons := Add_bitmap buttons wxART_FOLDER_bitmap Add_default_id in
  let wndList :=
    wxPGTextCtrlEditor_CreateControls propGrid property pos (GetPrimarySize buttons) in
  let buttons := FinalizePosition buttons pos in
  SetSecondary wndList buttons.

(** [wxMultiButtonTextCtrlEditor::OnEvent]: on a button click the
    identifier of the event is compared with [GetButtonId(0)],
    [GetButtonId(1)] and [GetButtonId(2)] in turn, each looked up only
    when the ones before did not match, and a match returns true; every
    other event goes to [wxPGTextCtrlEditor::OnEvent].  The result is
    [None] when a lookup indexes past the end of the buttons. *)
Definition wxMultiButtonTextCtrlEditor_OnEvent (propGrid : PropGrid)
    (property : Property) (ctrl : Ctrl) (event : wxEvent) : option bool :=
  let base := wxPGTextCtrlEditor_OnEvent propGrid property ctrl event in
  if decide (GetEventType event = wxEVT_COMMAND_BUTTON_CLICKED) then
    let buttons := GetEditorControlSecondary propGrid in
    id0 ← GetButtonId buttons 0;
    if decide (GetEventId event = id0) then Some true else
    id1 ← GetButtonId buttons 1;
    if decide (GetEventId event = id1) then Some true else
    id2 ← GetButtonId buttons 2;
    if decide (GetEventId event = id2) then Some true else
    Some base
  else Some base.

(** The event is a click on one of the first three buttons. *)
Definition clicks_first_three (buttons : wxPGMultiButton) (event : wxEvent) : Prop :=
  GetEventType event = wxEVT_COMMAND_BUTTON_CLICKED /\
  GetEventId event ∈ take 3 (button_ids buttons).

End ExampleEditor.

(** The secondary control the example builds in a cell of 100 by 20 at
    (5, 7) with the sample toolkit. *)
Definition sample_secondary : wxPGMultiButton :=
  FinalizePosition (@after_adds SampleToolkit (mk_wxSize 100 20) sample_calls)
                   (mk_wxPoint 5 7).

(** A base editor to run the example on: the grid is reduced to the
    secondary control it holds, the text editor builds an empty control and
    reports no change. *)
Definition SampleTextCtrlBase : TextCtrlBase wxPGMultiButton string (option string) :=
  {| wxEVT_COMMAND_BUTTON_CLICKED := 10008;
     wxART_FOLDER_bitmap := mk_wxBitmap 16 16;
     GetEditorControlSecondary propGrid := propGrid;
     wxPGTextCtrlEditor_CreateControls propGrid property pos sz :=
       mk_wxPGWindowList None None;
     wxPGTextCtrlEditor_OnEvent propGrid property ctrl event := false |}.

(** Controls to run the layout functions on: a cell 100 wide with buttons
    56 wide in all, and one with buttons wider than the cell. *)
Definition sample_buttons : list wxButton :=
  [ mk_wxButton (TextLabel "...") 1 20;
    mk_wxButton (TextLabel "A") 2 20;
    mk_wxButton (Image (mk_wxBitmap 16 16)) 3 16 ].

Definition sample_control : wxPGMultiButton :=
  mk_wxPGMultiButton (mk_wxPoint (-100) (-100)) sample_buttons (mk_wxSize 100 20) 56.

Definition sample_narrow_control : wxPGMultiButton :=
  mk_wxPGMultiButton (mk_wxPoint (-100) (-100)) sample_buttons (mk_wxSize 40 20) 56.

Definition sample_two_buttons : wxPGMultiButton :=
  mk_wxPGMultiButton (mk_wxPoint (-100) (-100)) (take 2 sample_buttons)
                     (mk_wxSize 100 20) 40.

(** * Properties *)

Section CIntFacts.

Lemma wrap_in_range z : CInt.in_range z -> CInt.wrap z = z.
Proof.
  unfold CInt.in_range, CInt.INT_MIN, CInt.INT_MAX, CInt.wrap. intros Hz.
  rewrite Z.mod_small; lia.
Qed.

Lemma wrap_congr a b : (a - b) mod 2 ^ 32 = 0 -> CInt.wrap a = CInt.wrap b.
Proof.
  unfold CInt.wrap. intros Hab. f_equal.
  replace (a + 2 ^ 31) with ((b + 2 ^ 31) + (a - b)) by lia.
  rewrite Z.add_mod by lia. rewrite Hab, Z.add_0_r. apply Z.mod_mod. lia.
Qed.

Lemma wrap_diff z : (CInt.wrap z - z) mod 2 ^ 32 = 0.
Proof.
  unfold CInt.wrap.
  rewrite (Z.mod_eq (z + 2 ^ 31) (2 ^ 32)) by lia.
  replace (z + 2 ^ 31 - 2 ^ 32 * ((z + 2 ^ 31) / 2 ^ 32) - 2 ^ 31 - z)
    with ((- ((z + 2 ^ 31) / 2 ^ 32)) * 2 ^ 32) by lia.
  apply Z.mod_mul. lia.
Qed.

Lemma wrap_add_l a b : CInt.wrap (CInt.wrap a + b) = CInt.wrap (a + b).
Proof.
  apply wrap_congr.
  replace (CInt.wrap a + b - (a + b)) with (CInt.wrap a - a) by lia.
  apply wrap_diff.
Qed.

Lemma wrap_sub_l a b : CInt.wrap (CInt.wrap a - b) = CInt.wrap (a - b).
Proof. apply (wrap_add_l a (- b)). Qed.

Lemma wrap_sub_r a b : CInt.wrap (a - CInt.wrap b) = CInt.wrap (a - b).
Proof.
  apply wrap_congr.
  replace (a - CInt.wrap b - (a - b)) with (- (CInt.wrap b - b)) by lia.
  pose proof (wrap_diff b) as Hb.
  apply Z.mod_divide in Hb; [|lia]. apply Z.mod_divide; [lia|].
  now apply Z.divide_opp_r.
Qed.

End CIntFacts.

Section MultiButtonFacts.

Context `{Toolkit}.

Lemma wrap_le_nonneg z : 0 <= z -> CInt.wrap z <= z.
Proof.
  intros Hz. unfold CInt.wrap.
  pose proof (Z.mod_le (z + 2 ^ 31) (2 ^ 32)). lia.
Qed.

Lemma total_width_snoc bs b :
  total_width (bs ++ [b]) = total_width bs + btn_width b.
Proof.
  induction bs as [|b' bs IH]; simpl; [lia|]. rewrite IH. lia.
Qed.

Lemma do_Add_Add mb c : do_Add mb c = Add mb (call_face c) (passed_id c).
Proof. unfold do_Add, Add_label, Add_bitmap, passed_id. now destruct (call_face c). Qed.

Lemma do_Add_fullEditorSize mb c :
  m_fullEditorSize (do_Add mb c) = m_fullEditorSize mb.
Proof. now rewrite do_Add_Add. Qed.

Lemma do_Add_width_accounted mb c :
  width_accounted mb -> width_accounted (do_Add mb c).
Proof.
  unfold width_accounted. rewrite do_Add_Add. simpl. intros ->.
  rewrite total_width_snoc. simpl. unfold CInt.add. apply wrap_add_l.
Qed.

Lemma adds_fullEditorSize calls mb :
  m_fullEditorSize (foldl do_Add mb calls) = m_fullEditorSize mb.
Proof.
  revert mb. induction calls as [|c calls IH]; intros mb; simpl; [done|].
  rewrite IH. apply do_Add_fullEditorSize.
Qed.

Lemma adds_width_accounted calls mb :
  width_accounted mb -> width_accounted (foldl do_Add mb calls).
Proof.
  revert mb. induction calls as [|c calls IH]; intros mb Hmb; simpl; [done|].
  apply IH, do_Add_width_accounted, Hmb.
Qed.

Lemma after_adds_width_accounted sz calls : width_accounted (after_adds sz calls).
Proof. apply adds_width_accounted. unfold width_accounted. simpl. reflexivity. Qed.

Lemma after_adds_fullEditorSize sz calls :
  m_fullEditorSize (after_adds sz calls) = sz.
Proof. unfold after_adds. now rewrite adds_fullEditorSize. Qed.

(** Whatever the widths, the width handed to the primary control is the
    cell width minus the combined button width, stored in an [int]. *)
Lemma GetPrimarySize_after_adds_int sz calls :
  GetPrimarySize (after_adds sz calls)
  = mk_wxSize (CInt.wrap (sz_x sz - total_width (m_buttons (after_adds sz calls))))
              (sz_y sz).
Proof.
  unfold GetPrimarySize.
  rewrite after_adds_fullEditorSize, (after_adds_width_accounted sz calls).
  unfold CInt.sub. now rewrite wrap_sub_r.
Qed.

(** C1: after the construction with cell size (w, h) and any sequence of
    Add calls whose buttons are bw wide in total, GetPrimarySize returns
    (w - bw, h), provided the difference is a value of an int. *)
Theorem GetPrimarySize_after_adds (sz : wxSize) (calls : list AddCall) :
  CInt.in_range (sz_x sz - total_width (m_buttons (after_adds sz calls))) ->
  GetPrimarySize (after_adds sz calls)
  = mk_wxSize (sz_x sz - total_width (m_buttons (after_adds sz calls))) (sz_y sz).
Proof.
  intros Hrange.
  rewrite GetPrimarySize_after_adds_int, wrap_in_range by exact Hrange.
  reflexivity.
Qed.

(** C3: with any number of buttons added, FinalizePosition(origin) puts
    the cluster so that its right edge is at origin.x + cellWidth,
    provided the x-coordinate it moves to is a value of an int. *)
Theorem FinalizePosition_right_edge (sz : wxSize) (calls : list AddCall)
    (origin : wxPoint) :
  CInt.in_range
    (pt_x origin + sz_x sz - total_width (m_buttons (after_adds sz calls))) ->
  ClusterRight (FinalizePosition (after_adds sz calls) origin)
  = pt_x origin + sz_x sz.
Proof.
  intros Hrange. unfold ClusterRight, FinalizePosition. simpl.
  rewrite after_adds_fullEditorSize, (after_adds_width_accounted sz calls).
  unfold CInt.sub, CInt.add.
  rewrite wrap_sub_r, wrap_sub_l, wrap_in_range by exact Hrange.
  lia.
Qed.

Lemma GetCount_le_length mb : GetCount mb <= Z.of_nat (length (m_buttons mb)).
Proof. unfold GetCount. apply wrap_le_nonneg. lia. Qed.

Lemma index_below_GetCount mb (i : N) :
  Z.of_N i < GetCount mb -> (N.to_nat i < length (m_buttons mb))%nat.
Proof.
  intros Hi. pose proof (GetCount_le_length mb). lia.
Qed.

Lemma GetButton_past_end mb (i : N) :
  (length (m_buttons mb) <= N.to_nat i)%nat ->
  GetButton mb i = None /\ GetButtonId mb i = None.
Proof.
  intros Hi. unfold GetButtonId, GetButton.
  rewrite (lookup_ge_None_2 _ _ Hi). split; reflexivity.
Qed.

(** The comparison as C++ makes it between the [unsigned int] index and
    the [int] count, the count converted to unsigned. *)
Lemma index_below_GetCount_unsigned mb (i : N) :
  Z.of_N i < GetCount mb mod 2 ^ 32 -> (N.to_nat i < length (m_buttons mb))%nat.
Proof.
  intros Hi.
  assert (Hmod : GetCount mb mod 2 ^ 32 = Z.of_nat (length (m_buttons mb)) mod 2 ^ 32).
  { unfold GetCount.
    pose proof (wrap_diff (Z.of_nat (length (m_buttons mb)))) as Hd.
    apply Z.mod_divide in Hd; [|lia]. destruct Hd as [k Hk].
    replace (CInt.wrap (Z.of_nat (length (m_buttons mb))))
      with (Z.of_nat (length (m_buttons mb)) + k * 2 ^ 32) by lia.
    apply Z.mod_add. lia. }
  pose proof (Z.mod_le (Z.of_nat (length (m_buttons mb))) (2 ^ 32)). lia.
Qed.

Lemma GetButton_in_bounds mb (i : N) :
  (N.to_nat i < length (m_buttons mb))%nat ->
  exists b, GetButton mb i = Some b /\ GetButtonId mb i = Some (GetId b).
Proof.
  intros Hi.
  destruct (lookup_lt_is_Some_2 (m_buttons mb) (N.to_nat i) Hi) as [b Hb].
  exists b. unfold GetButtonId, GetButton. rewrite Hb. split; reflexivity.
Qed.

(** C6: under the precondition i < GetCount(), the index is inside the
    button sequence, and GetButton(i) and GetButtonId(i) both return:
    the failure case of the array access is not reached. *)
Theorem GetButton_within_count (mb : wxPGMultiButton) (i : N) :
  Z.of_N i < GetCount mb ->
  (N.to_nat i < length (m_buttons mb))%nat /\
  exists b, GetButton mb i = Some b /\ GetButtonId mb i = Some (GetId b).
Proof.
  intros Hi. apply index_below_GetCount in Hi. split; [exact Hi|].
  now apply GetButton_in_bounds.
Qed.

(** C7: with no Add call made, GetPrimarySize returns the full cell size,
    and FinalizePosition(origin) moves the empty cluster, of width zero,
    to the right end of the cell and leaves the full cell to the primary
    control. *)
Theorem no_Add_full_cell (sz : wxSize) (origin : wxPoint) :
  CInt.in_range (sz_x sz) ->
  GetPrimarySize (wxPGMultiButton_ctor sz) = sz /\
  m_buttonsWidth (FinalizePosition (wxPGMultiButton_ctor sz) origin) = 0 /\
  GetCount (FinalizePosition (wxPGMultiButton_ctor sz) origin) = 0 /\
  m_position (FinalizePosition (wxPGMultiButton_ctor sz) origin)
  = mk_wxPoint (CInt.add (pt_x origin) (sz_x sz)) (pt_y origin) /\
  GetPrimarySize (FinalizePosition (wxPGMultiButton_ctor sz) origin) = sz.
Proof.
  intros Hrange.
  assert (Hsize : mk_wxSize (CInt.sub (sz_x sz) 0) (sz_y sz) = sz).
  { unfold CInt.sub. rewrite Z.sub_0_r, wrap_in_range by exact Hrange.
    now destruct sz. }
  repeat split; try exact Hsize.
  unfold FinalizePosition, Move, CInt.sub, CInt.add. simpl.
  rewrite Z.sub_0_r. f_equal.
  apply wrap_congr. apply wrap_diff.
Qed.

(** C10: FinalizePosition is idempotent: a second call with the same
    origin, no Add in between, leaves the control as the first call left
    it. *)
Theorem FinalizePosition_idempotent (mb : wxPGMultiButton) (origin : wxPoint) :
  FinalizePosition (FinalizePosition mb origin) origin = FinalizePosition mb origin.
Proof. reflexivity. Qed.

End MultiButtonFacts.

Section EditorFacts.

Context {Ctrl : Type}.

(** C9: a freshly constructed wxPGEditor has a NULL m_clientData. *)
Theorem wxPGEditor_ctor_clientData (raw : wxPGEditor) :
  m_clientData (wxPGEditor_ctor raw) = NULL.
Proof. reflexivity. Qed.

(** C8: the default InsertItem leaves the control as it is and returns
    -1, and the default DeleteItem leaves the control as it is; both
    always return. *)
Theorem default_list_hooks (ctrl : Ctrl) (label : string) (index : Z) :
  InsertItem ctrl label index = (ctrl, -1) /\ DeleteItem ctrl index = ctrl.
Proof. split; reflexivity. Qed.

End EditorFacts.

(** ** The theorems at work on the sample toolkit *)

Example sample_GetCount :
  GetCount (@after_adds SampleToolkit (mk_wxSize 100 20) sample_calls) = 3.
Proof. reflexivity. Qed.

Example sample_button_ids :
  button_ids (@after_adds SampleToolkit (mk_wxSize 100 20) sample_calls) = [1; 2; 3].
Proof. reflexivity. Qed.

Example sample_buttonsWidth :
  m_buttonsWidth (@after_adds SampleToolkit (mk_wxSize 100 20) sample_calls) = 56.
Proof. reflexivity. Qed.

Example sample_GetButtonId_last :
  GetButtonId (@after_adds SampleToolkit (mk_wxSize 100 20) sample_calls_with_ids) 2
  = Some 7.
Proof. reflexivity. Qed.

Example sample_GetButton_past_end :
  GetButton (@after_adds SampleToolkit (mk_wxSize 100 20) sample_calls) 3 = None.
Proof. reflexivity. Qed.

Example sample_FinalizePosition :
  m_position
    (FinalizePosition (@after_adds SampleToolkit (mk_wxSize 100 20) sample_calls)
                      (mk_wxPoint 5 7))
  = mk_wxPoint 49 7.
Proof. reflexivity. Qed.

Lemma GetPrimarySize_after_adds_witness :
  CInt.in_range (100 - 56) /\
  GetPrimarySize (@after_adds SampleToolkit (mk_wxSize 100 20) sample_calls)
  = mk_wxSize 44 20.
Proof.
  split.
  - unfold CInt.in_range, CInt.INT_MIN, CInt.INT_MAX. lia.
  - apply (@GetPrimarySize_after_adds SampleToolkit (mk_wxSize 100 20) sample_calls).
    unfold CInt.in_range, CInt.INT_MIN, CInt.INT_MAX. simpl. lia.
Defined.

Lemma FinalizePosition_right_edge_witness :
  ClusterRight
    (FinalizePosition (@after_adds SampleToolkit (mk_wxSize 100 20) sample_calls)
                      (mk_wxPoint 5 7))
  = 105.
Proof.
  apply (@FinalizePosition_right_edge SampleToolkit (mk_wxSize 100 20) sample_calls
           (mk_wxPoint 5 7)).
  unfold CInt.in_range, CInt.INT_MIN, CInt.INT_MAX. simpl. lia.
Defined.

Lemma GetButton_within_count_witness :
  exists b,
    GetButton (@after_adds SampleToolkit (mk_wxSize 100 20) sample_calls) 2 = Some b /\
    GetButtonId (@after_adds SampleToolkit (mk_wxSize 100 20) sample_calls) 2
    = Some (GetId b).
Proof.
  apply (GetButton_within_count
           (@after_adds SampleToolkit (mk_wxSize 100 20) sample_calls) 2).
  vm_compute. reflexivity.
Defined.

Lemma no_Add_full_cell_witness :
  GetPrimarySize (@wxPGMultiButton_ctor SampleToolkit (mk_wxSize 100 20))
  = mk_wxSize 100 20 /\
  m_position (FinalizePosition (@wxPGMultiButton_ctor SampleToolkit (mk_wxSize 100 20))
                               (mk_wxPoint 5 7))
  = mk_wxPoint 105 7.
Proof.
  assert (Hrange : CInt.in_range (sz_x (mk_wxSize 100 20))).
  { unfold CInt.in_range, CInt.INT_MIN, CInt.INT_MAX. simpl. lia. }
  destruct (@no_Add_full_cell SampleToolkit (mk_wxSize 100 20) (mk_wxPoint 5 7) Hrange)
    as (Hsize & _ & _ & Hpos & _).
  split; [exact Hsize | exact Hpos].
Defined.

(** ** More on the layout functions and the accessors *)

Section LayoutFacts.

Lemma wrap_add_r a b : CInt.wrap (a + CInt.wrap b) = CInt.wrap (a + b).
Proof. rewrite (Z.add_comm a), wrap_add_l. f_equal. lia. Qed.

(** X1: FinalizePosition puts the button window at the x-coordinate where
    a primary control of the width GetPrimarySize reports ends when it
    starts at the same origin (in int arithmetic), and at the y-coordinate
    of the origin. *)
Theorem FinalizePosition_after_primary (mb : wxPGMultiButton) (pos : wxPoint) :
  m_position (FinalizePosition mb pos)
  = mk_wxPoint (CInt.add (pt_x pos) (sz_x (GetPrimarySize mb))) (pt_y pos).
Proof.
  unfold FinalizePosition, GetPrimarySize, CInt.add, CInt.sub. simpl. f_equal.
  rewrite wrap_sub_l, wrap_add_r. f_equal. lia.
Qed.

(** X2: GetButton and GetButtonId fail on exactly the same indices, those
    not below the number of buttons. *)
Theorem accessors_fail_past_end (mb : wxPGMultiButton) (i : N) :
  (GetButton mb i = None <-> (length (m_buttons mb) <= N.to_nat i)%nat) /\
  (GetButtonId mb i = None <-> (length (m_buttons mb) <= N.to_nat i)%nat).
Proof.
  unfold GetButtonId, GetButton. rewrite fmap_None.
  split; apply lookup_ge_None.
Qed.

(** X3: as long as the number of buttons is a value of an int, GetCount
    returns that number, and the test i < GetCount() holds exactly for the
    indices on which GetButton returns a button. *)
Theorem GetCount_guard_exact (mb : wxPGMultiButton) (i : N) :
  Z.of_nat (length (m_buttons mb)) <= CInt.INT_MAX ->
  GetCount mb = Z.of_nat (length (m_buttons mb)) /\
  (Z.of_N i < GetCount mb <-> is_Some (GetButton mb i)).
Proof.
  intros Hlen.
  assert (Hcount : GetCount mb = Z.of_nat (length (m_buttons mb))).
  { unfold GetCount. apply wrap_in_range.
    unfold CInt.in_range, CInt.INT_MIN, CInt.INT_MAX in *. lia. }
  split; [exact Hcount|]. rewrite Hcount. unfold GetButton.
  rewrite lookup_lt_is_Some. lia.
Qed.

(** X4: the test i < GetCount() as C++ evaluates it, the int count
    converted to unsigned for the comparison with the unsigned index,
    also keeps both accessors inside the buttons. *)
Theorem unsigned_guard_in_bounds (mb : wxPGMultiButton) (i : N) :
  Z.of_N i < GetCount mb mod 2 ^ 32 ->
  is_Some (GetButton mb i) /\ is_Some (GetButtonId mb i).
Proof.
  intros Hi. apply index_below_GetCount_unsigned in Hi.
  destruct (GetButton_in_bounds mb i Hi) as [b [Hb Hid]].
  split; eexists; eassumption.
Qed.

(** X5: when the buttons fit in the cell (0 <= m_buttonsWidth <= cell
    width), the width GetPrimarySize returns lies between 0 and the cell
    width. *)
Theorem GetPrimarySize_within_cell (mb : wxPGMultiButton) :
  CInt.in_range (sz_x (m_fullEditorSize mb)) ->
  0 <= m_buttonsWidth mb <= sz_x (m_fullEditorSize mb) ->
  0 <= sz_x (GetPrimarySize mb) <= sz_x (m_fullEditorSize mb).
Proof.
  intros Hw Hbw. unfold GetPrimarySize, CInt.sub. simpl.
  rewrite wrap_in_range; [lia|].
  unfold CInt.in_range, CInt.INT_MIN, CInt.INT_MAX in *. lia.
Qed.

(** X6: GetPrimarySize does not clamp: when the buttons are wider than the
    cell, the width it returns is the negative difference. *)
Theorem GetPrimarySize_negative_width (mb : wxPGMultiButton) :
  0 <= sz_x (m_fullEditorSize mb) ->
  sz_x (m_fullEditorSize mb) < m_buttonsWidth mb <= CInt.INT_MAX ->
  sz_x (GetPrimarySize mb) = sz_x (m_fullEditorSize mb) - m_buttonsWidth mb /\
  sz_x (GetPrimarySize mb) < 0.
Proof.
  intros Hw Hbw. unfold GetPrimarySize, CInt.sub. simpl.
  rewrite wrap_in_range; [lia|].
  unfold CInt.in_range, CInt.INT_MIN, CInt.INT_MAX in *. lia.
Qed.

(** X7: when the buttons fit in the cell and the right end of the cell is
    a value of an int, FinalizePosition puts the button window inside the
    cell, m_buttonsWidth before its right end. *)
Theorem FinalizePosition_inside_cell (mb : wxPGMultiButton) (pos : wxPoint) :
  CInt.in_range (pt_x pos) ->
  CInt.in_range (pt_x pos + sz_x (m_fullEditorSize mb)) ->
  0 <= m_buttonsWidth mb <= sz_x (m_fullEditorSize mb) ->
  pt_x (m_position (FinalizePosition mb pos)) + m_buttonsWidth mb
  = pt_x pos + sz_x (m_fullEditorSize mb) /\
  pt_x pos <= pt_x (m_position (FinalizePosition mb pos))
           <= pt_x pos + sz_x (m_fullEditorSize mb).
Proof.
  intros Hx Hright Hbw. unfold FinalizePosition, CInt.add, CInt.sub. simpl.
  rewrite (wrap_in_range _ Hright). rewrite wrap_in_range; [lia|].
  unfold CInt.in_range, CInt.INT_MIN, CInt.INT_MAX in *. lia.
Qed.

End LayoutFacts.

(** ** The editor of the usage example *)

Section ExampleEditorFacts.

Context {PropGrid Property Ctrl : Type}.
Context `{Toolkit} `{TextCtrlBase PropGrid Property Ctrl}.

Lemma OnEvent_three_safe (propGrid : PropGrid) (property : Property) (ctrl : Ctrl)
    (event : wxEvent) :
  (3 <= length (m_buttons (GetEditorControlSecondary propGrid)))%nat ->
  is_Some (wxMultiButtonTextCtrlEditor_OnEvent propGrid property ctrl event).
Proof.
  intros Hlen. unfold wxMultiButtonTextCtrlEditor_OnEvent, GetButtonId, GetButton.
  destruct (m_buttons (GetEditorControlSecondary propGrid))
    as [|b0 [|b1 [|b2 rest]]]; simpl in Hlen; try lia.
  simpl. repeat case_decide; eexists; reflexivity.
Qed.

(** X8: with at least three buttons in the secondary control, the
    example's OnEvent always returns: true for a button click whose
    identifier is that of one of the first three buttons, and what
    wxPGTextCtrlEditor::OnEvent returns for every other event. *)
Theorem example_OnEvent_three_buttons (propGrid : PropGrid) (property : Property)
    (ctrl : Ctrl) (event : wxEvent) :
  (3 <= length (m_buttons (GetEditorControlSecondary propGrid)))%nat ->
  wxMultiButtonTextCtrlEditor_OnEvent propGrid property ctrl event
  = Some (bool_decide (clicks_first_three (GetEditorControlSecondary propGrid) event)
          || wxPGTextCtrlEditor_OnEvent propGrid property ctrl event).
Proof.
  intros Hlen.
  unfold wxMultiButtonTextCtrlEditor_OnEvent, clicks_first_three, button_ids,
    GetButtonId, GetButton.
  destruct (m_buttons (GetEditorControlSecondary propGrid))
    as [|b0 [|b1 [|b2 rest]]]; simpl in Hlen; try lia.
  simpl. f_equal.
  repeat case_decide; f_equal; symmetry.
  all: try (rewrite bool_decide_eq_true_2; [reflexivity|];
            split; [assumption|]; rewrite !elem_of_cons; tauto).
  all: rewrite bool_decide_eq_false_2; [reflexivity|].
  all: rewrite !elem_of_cons, elem_of_nil; tauto.
Qed.

(** X9: with fewer than three buttons in the secondary control, a button
    click whose identifier is that of none of them makes the example's
    OnEvent index past the end of the buttons. *)
Theorem example_OnEvent_too_few_buttons (propGrid : PropGrid) (property : Property)
    (ctrl : Ctrl) (event : wxEvent) :
  (length (m_buttons (GetEditorControlSecondary propGrid)) < 3)%nat ->
  GetEventType event = wxEVT_COMMAND_BUTTON_CLICKED ->
  GetEventId event ∉ button_ids (GetEditorControlSecondary propGrid) ->
  wxMultiButtonTextCtrlEditor_OnEvent propGrid property ctrl event = None.
Proof.
  intros Hlen Hclick Hid.
  unfold wxMultiButtonTextCtrlEditor_OnEvent, button_ids, GetButtonId, GetButton in *.
  destruct (m_buttons (GetEditorControlSecondary propGrid))
    as [|b0 [|b1 [|b2 rest]]]; simpl in Hlen; try lia; simpl in *.
  all: rewrite decide_True by exact Hclick; try reflexivity.
  all: rewrite !not_elem_of_cons in Hid.
  all: repeat (rewrite decide_False by tauto); reflexivity.
Qed.

(** X10: the example is safe on its own controls: when the grid hands
    back, as secondary control, the one the example's CreateControls
    returned, the example's OnEvent never indexes past the end of the
    buttons, whatever the event. *)
Theorem example_editor_safe (propGrid grid : PropGrid) (property edited : Property)
    (pos : wxPoint) (sz : wxSize) (ctrl : Ctrl) (event : wxEvent) :
  m_secondary (wxMultiButtonTextCtrlEditor_CreateControls propGrid property pos sz)
  = Some (GetEditorControlSecondary grid) ->
  is_Some (wxMultiButtonTextCtrlEditor_OnEvent grid edited ctrl event).
Proof.
  intros Hsecondary. apply OnEvent_three_safe.
  simpl in Hsecondary. injection Hsecondary as <-. simpl. lia.
Qed.

End ExampleEditorFacts.

(** ** The further properties at work on the samples *)

Lemma GetCount_guard_exact_witness :
  GetCount sample_control = 3 /\
  (Z.of_N 2 < GetCount sample_control <-> is_Some (GetButton sample_control 2)).
Proof.
  apply (GetCount_guard_exact sample_control 2).
  unfold CInt.INT_MAX. simpl. lia.
Defined.

Lemma unsigned_guard_in_bounds_witness :
  is_Some (GetButton sample_control 2) /\ is_Some (GetButtonId sample_control 2).
Proof.
  apply (unsigned_guard_in_bounds sample_control 2). vm_compute. reflexivity.
Defined.

Lemma GetPrimarySize_within_cell_witness :
  0 <= sz_x (GetPrimarySize sample_control) <= 100.
Proof.
  apply (GetPrimarySize_within_cell sample_control).
  - unfold CInt.in_range, CInt.INT_MIN, CInt.INT_MAX. simpl. lia.
  - simpl. lia.
Defined.

Lemma GetPrimarySize_negative_width_witness :
  sz_x (GetPrimarySize sample_narrow_control) = 40 - 56 /\
  sz_x (GetPrimarySize sample_narrow_control) < 0.
Proof.
  apply (GetPrimarySize_negative_width sample_narrow_control).
  - simpl. lia.
  - unfold CInt.INT_MAX. simpl. lia.
Defined.

Lemma FinalizePosition_inside_cell_witness :
  pt_x (m_position (FinalizePosition sample_control (mk_wxPoint 5 7))) + 56 = 5 + 100 /\
  5 <= pt_x (m_position (FinalizePosition sample_control (mk_wxPoint 5 7))) <= 5 + 100.
Proof.
  apply (FinalizePosition_inside_cell sample_control (mk_wxPoint 5 7)).
  - unfold CInt.in_range, CInt.INT_MIN, CInt.INT_MAX. simpl. lia.
  - unfold CInt.in_range, CInt.INT_MIN, CInt.INT_MAX. simpl. lia.
  - simpl. lia.
Defined.

Lemma example_OnEvent_three_buttons_witness :
  @wxMultiButtonTextCtrlEditor_OnEvent _ _ _ SampleTextCtrlBase
    sample_control "abc"%string None (mk_wxEvent 10008 2)
  = Some true.
Proof.
  apply (@example_OnEvent_three_buttons _ _ _ SampleTextCtrlBase
           sample_control "abc"%string None (mk_wxEvent 10008 2)).
  simpl. lia.
Defined.

Lemma example_OnEvent_too_few_buttons_witness :
  @wxMultiButtonTextCtrlEditor_OnEvent _ _ _ SampleTextCtrlBase
    sample_two_buttons "abc"%string None (mk_wxEvent 10008 3)
  = None.
Proof.
  apply (@example_OnEvent_too_few_buttons _ _ _ SampleTextCtrlBase
           sample_two_buttons "abc"%string None (mk_wxEvent 10008 3)).
  - simpl. lia.
  - reflexivity.
  - apply (bool_decide_unpack _). vm_compute. exact I.
Defined.

Lemma example_editor_safe_witness :
  is_Some (@wxMultiButtonTextCtrlEditor_OnEvent _ _ _ SampleTextCtrlBase
             sample_secondary "abc"%string None (mk_wxEvent 10008 9)).
Proof.
  apply (@example_editor_safe _ _ _ SampleToolkit SampleTextCtrlBase
           sample_control sample_secondary "abc"%string "abc"%string
           (mk_wxPoint 5 7) (mk_wxSize 100 20) None (mk_wxEvent 10008 9)).
  reflexivity.
Defined.
